(** * tomviz/python/setup.py: the packaging manifest of [tomviz-pipeline]

    The file is one call of [setuptools.setup] on literal keyword
    arguments.  The keyword arguments are embedded as a record, the two
    dictionaries ([extras_require], [entry_points]) as finite maps from
    strings to lists of strings, and the one run-time value
    ([find_packages()]) as an argument of the call. *)

From Stdlib Require Import Ascii.
From stdpp Require Import gmap strings list fin_maps.

Local Open Scope string_scope.

(** ** The manifest *)

(** The module-level constant of lines 3-4. *)
Definition jsonpatch_uri : string :=
  "jsonpatch@https://github.com/cjh1/python-json-patch/archive/tomviz.zip".

(** The keyword arguments [setup] is called with. *)
Record setup_kwargs := SetupKwargs {
  name : string;
  version : string;
  description : string;
  author : string;
  author_email : string;
  url : string;
  license : string;
  classifiers : list string;
  packages : list string;
  install_requires : list string;
  extras_require : gmap string (list string);
  entry_points : gmap string (list string)
}.

(** The call of lines 6-37.  What [find_packages()] returns depends on the
    directory the manifest is run in, so it is an argument.  A dict display
    evaluates its items left to right, a later key replacing an earlier
    equal one: nested inserts, the first item innermost. *)
Definition setup_call (find_packages : list string) : setup_kwargs := {|
  name := "tomviz-pipeline";
  version := "0.0.1";
  description := "Tomviz python external pipeline execution infrastructure.";
  author := "Kitware, Inc.";
  author_email := "kitware@kitware.com";
  url := "https://www.tomviz.org/";
  license := "BSD 3-Clause";
  classifiers := [
    "Development Status :: 3 - Alpha";
    "License :: OSI Approved :: BSD 3-Clause";
    "Operating System :: OS Independent";
    "Programming Language :: Python";
    "Programming Language :: Python :: 2";
    "Programming Language :: Python :: 2.7";
    "Programming Language :: Python :: 3";
    "Programming Language :: Python :: 3.5"
  ];
  packages := find_packages;
  install_requires := ["tqdm"; "h5py"; "numpy"; "click"; "scipy"];
  extras_require :=
    <["pyfftw" := ["pyfftw"]]>
      (<["itk" := ["itk"]]>
        (<["interactive" := [jsonpatch_uri; "marshmallow"]]> ∅));
  entry_points :=
    <["console_scripts" := ["tomviz-pipeline = tomviz.cli:main"]]> ∅
|}.

(** ** How the strings of the manifest are read

    The manifest only carries strings; what they mean is fixed by the
    packaging conventions [setup] follows.  The readers below cover the
    shapes this manifest uses and are what the statements about "package
    names", "direct URLs" and "callables" are phrased with. *)

Definition is_name_char (c : ascii) : bool :=
  let n := nat_of_ascii c in
  ((48 <=? n) && (n <=? 57)                  (* 0-9 *)
   || (65 <=? n) && (n <=? 90)               (* A-Z *)
   || (97 <=? n) && (n <=? 122)              (* a-z *)
   || (n =? 45) || (n =? 95) || (n =? 46))%nat.   (* - _ . *)

Definition is_blank (c : ascii) : bool :=
  let n := nat_of_ascii c in ((n =? 32) || (n =? 9))%nat.

(** The longest prefix of name characters, and what follows it. *)
Fixpoint span_name (s : string) : string * string :=
  match s with
  | EmptyString => (EmptyString, EmptyString)
  | String c s' =>
      if is_name_char c
      then let '(n, r) := span_name s' in (String c n, r)
      else (EmptyString, s)
  end.

Fixpoint lstrip (s : string) : string :=
  match s with
  | String c s' => if is_blank c then lstrip s' else s
  | EmptyString => EmptyString
  end.

Definition rstrip (s : string) : string :=
  String.rev (lstrip (String.rev s)).

Definition strip (s : string) : string := rstrip (lstrip s).

(** [partition_at c s]: the text before and after the first [c] of [s]. *)
Fixpoint partition_at (c : ascii) (s : string) : option (string * string) :=
  match s with
  | EmptyString => None
  | String a s' =>
      if Ascii.eqb a c then Some (EmptyString, s')
      else match partition_at c s' with
           | Some (l, r) => Some (String a l, r)
           | None => None
           end
  end.

Fixpoint strip_prefix (p s : string) : option string :=
  match p, s with
  | EmptyString, _ => Some s
  | String a p', String b s' =>
      if Ascii.eqb a b then strip_prefix p' s' else None
  | String _ _, EmptyString => None
  end.

(** A requirement string: a project name, then nothing, or [@] and a URL
    (a direct reference), or a version specifier. *)
Inductive requirement :=
  | Bare (project : string)
  | DirectUrl (project location : string)
  | Constrained (project spec : string).

Definition parse_requirement (s : string) : option requirement :=
  let '(n, r) := span_name (strip s) in
  match n with
  | EmptyString => None
  | _ =>
      match lstrip r with
      | EmptyString => Some (Bare n)
      | String "@" u => Some (DirectUrl n (lstrip u))
      | spec => Some (Constrained n spec)
      end
  end.

Definition req_project (s : string) : string := fst (span_name (strip s)).

(** An entry point line: [command = module:attribute], the attribute
    optional. *)
Record entry_point := EntryPoint {
  ep_name : string;
  ep_module : string;
  ep_attr : option string
}.

Definition parse_entry_point (s : string) : option entry_point :=
  match partition_at "=" s with
  | None => None
  | Some (l, r) =>
      match partition_at ":" r with
      | Some (m, a) => Some (EntryPoint (strip l) (strip m) (Some (strip a)))
      | None => Some (EntryPoint (strip l) (strip r) None)
      end
  end.

(** The commands a manifest declares: the names of the entries of every
    group of [entry_points] that stands for executables. *)
Definition script_groups : list string := ["console_scripts"; "gui_scripts"].

Definition group_entries (m : setup_kwargs) (g : string) : list string :=
  default [] (entry_points m !! g).

Definition declared_commands (m : setup_kwargs) : list string :=
  omap (λ e, ep_name <$> parse_entry_point e)
       (concat (group_entries m <$> script_groups)).

(** The interpreter versions the classifiers name. *)
Definition python_versions (m : setup_kwargs) : list string :=
  omap (strip_prefix "Programming Language :: Python :: ") (classifiers m).

(** Modelled from the spec: the installer is not part of the repository;
    the glossary gives its rule for extras, "optional, named groups of
    additional dependencies a package may declare, installed only when
    explicitly requested".  The requirements of an install are the
    unconditional list followed by the lists of the requested extras. *)
Definition extra_requirements (m : setup_kwargs) (e : string) : list string :=
  default [] (extras_require m !! e).

(** Modelled from the spec: what an install with the extras [extras]
    requires, by the same rule of the glossary. *)
Definition requirements (m : setup_kwargs) (extras : list string) : list string :=
  install_requires m ++ concat (extra_requirements m <$> extras).

(** The dependency lists the manifest declares: the unconditional one, then
    one per extra. *)
Definition all_dependency_lists (m : setup_kwargs) : list (list string) :=
  install_requires m :: (snd <$> map_to_list (extras_require m)).

(** The license classifiers of a manifest: what follows [License :: ] in
    the classifiers that start with it. *)
Definition license_classifiers (m : setup_kwargs) : list string :=
  omap (strip_prefix "License :: ") (classifiers m).

(** The projects a manifest names in any of its dependency lists. *)
Definition required_projects (m : setup_kwargs) : list string :=
  req_project <$> concat (all_dependency_lists m).

(** A closed decidable proposition, settled by evaluating its decision. *)
Ltac decide_closed := apply (bool_decide_unpack _); vm_compute; exact I.

(** Case analysis of membership in a literal list. *)
Ltac literal_elem H :=
  repeat (apply elem_of_cons in H as [-> | H]);
  try (by apply elem_of_nil in H).

(** ** The installer's rule, for any manifest *)

Lemma requirements_base (m : setup_kwargs) :
  requirements m [] = install_requires m.
Proof. unfold requirements. simpl. by rewrite app_nil_r. Qed.

Lemma elem_of_requirements (m : setup_kwargs) (es : list string) (r : string) :
  r ∈ requirements m es ↔
  r ∈ install_requires m ∨ ∃ e, e ∈ es ∧ r ∈ extra_requirements m e.
Proof.
  unfold requirements. rewrite elem_of_app. apply or_iff_compat_l.
  induction es as [|e es IH]; simpl.
  - split; [by intros ?%elem_of_nil | by intros (? & ?%elem_of_nil & _)].
  - rewrite elem_of_app, IH. split.
    + intros [H | (e' & He' & H)].
      * exists e. split; [left | done].
      * exists e'. split; [by right | done].
    + intros (e' & [-> | He']%elem_of_cons & H); [by left|].
      right. by exists e'.
Qed.

Lemma requirements_mono (m : setup_kwargs) (es es' : list string) :
  es ⊆ es' → requirements m es ⊆ requirements m es'.
Proof.
  intros Hsub r. rewrite !elem_of_requirements.
  intros [H | (e & He & H)]; [by left|].
  right. exists e. split; [by apply Hsub | done].
Qed.

Lemma requirements_keep_base (m : setup_kwargs) (es : list string) :
  install_requires m ⊆ requirements m es.
Proof. intros r H. apply elem_of_requirements. by left. Qed.

Lemma requirements_single (m : setup_kwargs) (e : string) (l : list string) :
  extras_require m !! e = Some l →
  requirements m [e] = (install_requires m ++ l)%list.
Proof.
  intros He. unfold requirements, extra_requirements. simpl.
  rewrite He. simpl. by rewrite app_nil_r.
Qed.

(** ** The extras of this manifest, by cases *)

Lemma extras_require_cases (fp : list string) (e : string) (l : list string) :
  extras_require (setup_call fp) !! e = Some l →
  (e = "interactive" ∧ l = [jsonpatch_uri; "marshmallow"])
  ∨ (e = "itk" ∧ l = ["itk"])
  ∨ (e = "pyfftw" ∧ l = ["pyfftw"]).
Proof.
  simpl. rewrite !lookup_insert_Some, lookup_empty.
  intros [[<- <-] | [_ [[<- <-] | [_ [[<- <-] | [_ ?]]]]]]; auto; discriminate.
Qed.

(** ** The claims *)

(** C2: the unconditional dependency list is exactly the five entries tqdm,
    h5py, numpy, click and scipy, and each entry is a bare project name:
    none carries a version specifier or a URL, so nothing constrains the
    base install; no entry occurs twice. *)
Theorem install_requires_exactly_five (fp : list string) :
  install_requires (setup_call fp) = ["tqdm"; "h5py"; "numpy"; "click"; "scipy"]
  ∧ length (install_requires (setup_call fp)) = 5%nat
  ∧ Forall (λ r, parse_requirement r = Some (Bare r))
           (install_requires (setup_call fp))
  ∧ NoDup (install_requires (setup_call fp)).
Proof.
  split; [reflexivity|].
  split; [reflexivity|].
  split; [simpl; repeat constructor | decide_closed].
Qed.

(** C5: the extras mapping has exactly the three keys interactive, itk and
    pyfftw, and the list of the pyfftw extra is the single entry pyfftw, a
    bare project name. *)
Theorem extras_require_three_keys (fp : list string) :
  dom (extras_require (setup_call fp))
    = ({["interactive"; "itk"; "pyfftw"]} : gset string)
  ∧ size (extras_require (setup_call fp)) = 3%nat
  ∧ extras_require (setup_call fp) !! "pyfftw" = Some ["pyfftw"]
  ∧ parse_requirement "pyfftw" = Some (Bare "pyfftw").
Proof.
  split; [|split; [|split]].
  - simpl. rewrite !dom_insert_L, dom_empty_L. set_solver.
  - simpl. rewrite !map_size_insert_None, map_size_empty; [done|..].
    + apply lookup_empty.
    + rewrite lookup_insert_ne; [apply lookup_empty | done].
    + rewrite !lookup_insert_ne; [apply lookup_empty | done..].
  - simpl. apply lookup_insert_eq.
  - reflexivity.
Qed.

(** C4: the extras mapping has an extra itk whose list is the single entry
    itk, a bare project name; an install with the itk extra requires the
    base list followed by that one entry, and what it requires beyond the
    base install is exactly that entry. *)
Theorem extra_itk_exactly_itk (fp : list string) :
  extras_require (setup_call fp) !! "itk" = Some ["itk"]
  ∧ parse_requirement "itk" = Some (Bare "itk")
  ∧ requirements (setup_call fp) ["itk"]
      = (requirements (setup_call fp) [] ++ ["itk"])%list
  ∧ list_difference (requirements (setup_call fp) ["itk"])
                    (requirements (setup_call fp) []) = ["itk"].
Proof.
  split.
  { simpl. rewrite lookup_insert_ne by done. apply lookup_insert_eq. }
  repeat split; reflexivity.
Qed.

(** C10: the JSON-patch requirement is exactly the string
    jsonpatch@https://github.com/cjh1/python-json-patch/archive/tomviz.zip;
    read as a requirement it is a direct reference of the project jsonpatch
    to that archive, not a name with a version specifier; and it is the
    first entry of the interactive extra. *)
Theorem jsonpatch_is_direct_url (fp : list string) :
  jsonpatch_uri
    = "jsonpatch@https://github.com/cjh1/python-json-patch/archive/tomviz.zip"
  ∧ parse_requirement jsonpatch_uri
      = Some (DirectUrl "jsonpatch"
                "https://github.com/cjh1/python-json-patch/archive/tomviz.zip")
  ∧ (∀ p spec, parse_requirement jsonpatch_uri ≠ Some (Constrained p spec))
  ∧ (∀ p, parse_requirement jsonpatch_uri ≠ Some (Bare p))
  ∧ (extras_require (setup_call fp) !! "interactive") ≫= head
      = Some jsonpatch_uri.
Proof.
  split; [reflexivity|].
  split; [reflexivity|].
  split; [by intros p spec|].
  split; [by intros p|].
  simpl. rewrite !lookup_insert_ne by done. by rewrite lookup_insert_eq.
Qed.

(** C3: the extras mapping has an extra interactive whose list has exactly
    two entries, the direct-URL requirement of the JSON-patch fork and the
    bare project name marshmallow; an install with the interactive extra
    requires the base list followed by these two, and what it requires
    beyond the base install is exactly these two. *)
Theorem extra_interactive_exactly_two (fp : list string) :
  extras_require (setup_call fp) !! "interactive"
    = Some [jsonpatch_uri; "marshmallow"]
  ∧ (∃ location, parse_requirement jsonpatch_uri
                   = Some (DirectUrl "jsonpatch" location))
  ∧ parse_requirement "marshmallow" = Some (Bare "marshmallow")
  ∧ requirements (setup_call fp) ["interactive"]
      = (requirements (setup_call fp) [] ++ [jsonpatch_uri; "marshmallow"])%list
  ∧ list_difference (requirements (setup_call fp) ["interactive"])
                    (requirements (setup_call fp) [])
      = [jsonpatch_uri; "marshmallow"].
Proof.
  split.
  { simpl. rewrite !lookup_insert_ne by done. apply lookup_insert_eq. }
  split; [eexists; reflexivity|].
  repeat split; reflexivity.
Qed.

(** C8: the entry point line of the manifest is exactly
    tomviz-pipeline = tomviz.cli:main, the only line of the only group; it
    names the callable main of the module tomviz.cli. *)
Theorem entry_point_is_tomviz_cli_main (fp : list string) :
  map_to_list (entry_points (setup_call fp))
    = [("console_scripts", ["tomviz-pipeline = tomviz.cli:main"])]
  ∧ parse_entry_point "tomviz-pipeline = tomviz.cli:main"
      = Some (EntryPoint "tomviz-pipeline" "tomviz.cli" (Some "main")).
Proof.
  split; [|reflexivity].
  simpl. rewrite insert_empty. apply map_to_list_singleton.
Qed.

(** C1: entry_points has the single group console_scripts, that group has a
    single line, the line declares the command tomviz-pipeline with a
    callable named main as its target, and the manifest declares no other
    command. *)
Theorem console_scripts_exactly_one (fp : list string) :
  dom (entry_points (setup_call fp)) = ({["console_scripts"]} : gset string)
  ∧ (∃ e, entry_points (setup_call fp) !! "console_scripts" = Some [e]
          ∧ ep_name <$> parse_entry_point e = Some "tomviz-pipeline"
          ∧ parse_entry_point e ≫= ep_attr = Some "main")
  ∧ declared_commands (setup_call fp) = ["tomviz-pipeline"].
Proof.
  split; [|split].
  - simpl. rewrite dom_insert_L, dom_empty_L. set_solver.
  - eexists. split; [apply lookup_insert_eq|]. split; reflexivity.
  - reflexivity.
Qed.

(** C6: the license field is the string BSD 3-Clause, and the classifiers
    list Python 2.7 and Python 3 (the versions the classifiers name are 2,
    2.7, 3 and 3.5). *)
Theorem license_and_python_versions (fp : list string) :
  license (setup_call fp) = "BSD 3-Clause"
  ∧ "Programming Language :: Python :: 2.7" ∈ classifiers (setup_call fp)
  ∧ "Programming Language :: Python :: 3" ∈ classifiers (setup_call fp)
  ∧ python_versions (setup_call fp) = ["2"; "2.7"; "3"; "3.5"].
Proof.
  split; [reflexivity|].
  split; [|split; [|reflexivity]]; simpl; rewrite !elem_of_cons; tauto.
Qed.

(** C7: for every extra of the extras mapping, an install with that extra
    requires the base list followed by the extra's list, so every
    requirement of the base install is a requirement of that install; no
    entry of the extra's list names the project of an unconditional
    dependency, so none is replaced; and requesting more extras never
    requires less. *)
Theorem extras_only_add (fp : list string) (e : string) (l : list string) :
  extras_require (setup_call fp) !! e = Some l →
  requirements (setup_call fp) [e] = (install_requires (setup_call fp) ++ l)%list
  ∧ requirements (setup_call fp) [] ⊆ requirements (setup_call fp) [e]
  ∧ (∀ r, r ∈ l →
       req_project r ∉ req_project <$> install_requires (setup_call fp))
  ∧ (∀ es es' : list string,
       es ⊆ es' → requirements (setup_call fp) es ⊆ requirements (setup_call fp) es').
Proof.
  intros He. split; [|split; [|split]].
  - by apply requirements_single.
  - rewrite requirements_base. apply requirements_keep_base.
  - intros r Hr.
    apply extras_require_cases in He as [[-> ->] | [[-> ->] | [-> ->]]];
      literal_elem Hr; decide_closed.
  - apply requirements_mono.
Qed.

(** C9: read as project names, the entries of the base list and of the
    three extras' lists are all different: no list has a duplicate, no
    name of an extra is a name of the base list, and no name occurs in two
    different extras. *)
Theorem dependency_lists_disjoint (fp : list string) :
  length (all_dependency_lists (setup_call fp)) = 4%nat
  ∧ NoDup (req_project <$> concat (all_dependency_lists (setup_call fp)))
  ∧ NoDup (req_project <$> install_requires (setup_call fp))
  ∧ (∀ e l, extras_require (setup_call fp) !! e = Some l →
       NoDup (req_project <$> l)
       ∧ ∀ r b, r ∈ l → b ∈ install_requires (setup_call fp) →
           req_project r ≠ req_project b)
  ∧ (∀ e1 e2 l1 l2, e1 ≠ e2 →
       extras_require (setup_call fp) !! e1 = Some l1 →
       extras_require (setup_call fp) !! e2 = Some l2 →
       ∀ r1 r2, r1 ∈ l1 → r2 ∈ l2 → req_project r1 ≠ req_project r2).
Proof.
  split; [reflexivity|].
  split; [decide_closed|].
  split; [decide_closed|].
  split.
  - intros e l He.
    apply extras_require_cases in He as [[-> ->] | [[-> ->] | [-> ->]]];
      (split; [decide_closed|]);
      intros r b Hr Hb; simpl in Hb; literal_elem Hr; literal_elem Hb;
      vm_compute; discriminate.
  - intros e1 e2 l1 l2 Hne H1 H2 r1 r2 Hr1 Hr2.
    apply extras_require_cases in H1 as [[-> ->] | [[-> ->] | [-> ->]]];
      apply extras_require_cases in H2 as [[-> ->] | [[-> ->] | [-> ->]]];
      try done; literal_elem Hr1; literal_elem Hr2; vm_compute; discriminate.
Qed.

(** ** Consistency between the fields of the manifest *)

(** X1: the one command the manifest declares carries the name of the
    distribution itself (the [name] field of line 7 and the entry point
    line of line 34 agree), whatever [find_packages] returns. *)
Theorem command_is_distribution_name (fp : list string) :
  declared_commands (setup_call fp) = [name (setup_call fp)].
Proof. reflexivity. Qed.

(** X2: the classifiers carry exactly one license classifier, and it is the
    OSI-approved classifier of the license the [license] field names. *)
Theorem license_classifier_matches_license (fp : list string) :
  license_classifiers (setup_call fp)
    = ["OSI Approved :: " +:+ license (setup_call fp)].
Proof. reflexivity. Qed.

(** X3: the distribution never requires itself: its name is a well-formed
    bare project name, and no entry of the base list or of any extra names
    that project. *)
Theorem no_self_requirement (fp : list string) :
  parse_requirement (name (setup_call fp)) = Some (Bare (name (setup_call fp)))
  ∧ length (required_projects (setup_call fp)) = 9%nat
  ∧ name (setup_call fp) ∉ required_projects (setup_call fp).
Proof.
  split; [reflexivity|].
  split; [reflexivity|].
  decide_closed.
Qed.

(** ** The statements with a premise, at concrete inputs *)

(** [extras_only_add] at the interactive extra, run from a directory with no
    package. *)
Lemma extras_only_add_witness :
  extras_require (setup_call []) !! "interactive"
    = Some [jsonpatch_uri; "marshmallow"]
  ∧ requirements (setup_call []) ["interactive"]
      = ["tqdm"; "h5py"; "numpy"; "click"; "scipy"; jsonpatch_uri; "marshmallow"]
  ∧ requirements (setup_call []) [] ⊆ requirements (setup_call []) ["interactive"].
Proof.
  split; [reflexivity|].
  pose proof (extras_only_add [] "interactive" [jsonpatch_uri; "marshmallow"]
                eq_refl) as (Heq & Hsub & _).
  split; [exact Heq | exact Hsub].
Defined.

(** [dependency_lists_disjoint] at the extras interactive and itk: marshmallow
    and itk are different projects. *)
Lemma dependency_lists_disjoint_witness :
  req_project "marshmallow" ≠ req_project "itk".
Proof.
  destruct (dependency_lists_disjoint []) as (_ & _ & _ & _ & Hpair).
  apply (Hpair "interactive" "itk" [jsonpatch_uri; "marshmallow"] ["itk"]).
  - discriminate.
  - reflexivity.
  - reflexivity.
  - apply elem_of_cons. right. apply elem_of_cons. by left.
  - apply elem_of_cons. by left.
Defined.
